(** * IDAES unit models: the Flash unit and the SolventReboiler solution tests

    A shallow embedding of
    - [idaes/unit_models/flash.py]: the configuration block of [FlashData]
      and its [build] method;
    - the [test_solution] methods of
      [idaes/generic_models/unit_models/column_models/tests/test_solvent_reboiler.py].

    The modelling framework (Pyomo blocks, ports, configuration values) and
    the IDAES core classes (control volume, separator) are libraries of the
    embedded code.  Their objects are represented by what the embedded code
    asks of them: constructor arguments, method calls in call order, and
    attribute paths. *)

From stdpp Require Import gmap strings list fin_maps.
From Stdlib Require Import ZArith QArith Qabs Qminmax Lia.

Local Open Scope string_scope.
Local Open Scope Z_scope.

(** ** Exceptions and fallible computations *)

Inductive exn :=
| ValueError       (* raised by configuration validation *)
| AttributeError.  (* attribute read on an object that lacks it *)

Inductive result (A : Type) :=
| Ok (a : A)
| Raise (e : exn).
Arguments Ok {A} a.
Arguments Raise {A} e.

#[global] Instance result_ret : MRet result := fun A a => Ok a.
#[global] Instance result_bind : MBind result := fun A B f m =>
  match m with
  | Ok a => f a
  | Raise e => Raise e
  end.

Definition is_Ok {A} (r : result A) : bool :=
  match r with Ok _ => true | Raise _ => false end.

(** ** The balance-type enumerations of [idaes.core]

    The declarations live in [idaes.core]; the members are the ones the
    configuration documentation of [flash.py] lists as valid values. *)

Module MaterialBalanceType.
Inductive t := none | componentPhase | componentTotal | elementTotal | total.
#[global] Instance eq_dec : EqDecision t.
Proof. solve_decision. Defined.
End MaterialBalanceType.

Module EnergyBalanceType.
Inductive t := none | enthalpyTotal | enthalpyPhase | energyTotal | energyPhase.
#[global] Instance eq_dec : EqDecision t.
Proof. solve_decision. Defined.
End EnergyBalanceType.

Module MomentumBalanceType.
Inductive t := none | pressureTotal | pressurePhase | momentumTotal | momentumPhase.
#[global] Instance eq_dec : EqDecision t.
Proof. solve_decision. Defined.
End MomentumBalanceType.

(** [idaes.unit_models.separator.SplittingType]; [flash.py] uses [phaseFlow]. *)
Module SplittingType.
Inductive t := totalFlow | phaseFlow | componentFlow | phaseComponentFlow.
#[global] Instance eq_dec : EqDecision t.
Proof. solve_decision. Defined.
End SplittingType.

(** ** Python values that can reach a configuration option

    [None], booleans, integers, finite floats (as the rationals they
    denote), strings, members of the three balance enumerations, the
    [useDefault] marker, property parameter blocks, and instances of any
    other class. *)

(** A property parameter block; [Flash.build] reads its [phase_list]. *)
Record PhysicalParameterBlock := {
  pp_name : string;
  phase_list : list string
}.
#[global] Instance PhysicalParameterBlock_eq_dec : EqDecision PhysicalParameterBlock.
Proof. solve_decision. Defined.

Inductive pyval :=
| PyNone
| PyBool (b : bool)
| PyInt (n : Z)
| PyFloat (q : Q)                             (* a finite float *)
| PyStr (s : string)
| PyMaterialBalanceType (m : MaterialBalanceType.t)
| PyEnergyBalanceType (e : EnergyBalanceType.t)
| PyMomentumBalanceType (p : MomentumBalanceType.t)
| PyUseDefault                                (* the [useDefault] marker *)
| PyParameterBlock (pp : PhysicalParameterBlock)
| PyObject (id : nat).                        (* an instance of any other class *)

(** An argument of the [default={...}] dictionary: a value or a nested
    dictionary of values (for [property_package_args]). *)
Inductive pyarg :=
| Scalar (v : pyval)
| Dict (d : gmap string pyval).

(** Python's [a == b].  [bool] is a subclass of [int], so [False == 0] and
    [True == 1], and numbers compare by value across [int] and [float];
    members of a plain [Enum] and ordinary objects compare by identity. *)
Definition py_eq (a b : pyval) : bool :=
  match a, b with
  | PyNone, PyNone => true
  | PyBool x, PyBool y => Bool.eqb x y
  | PyBool x, PyInt n => Z.b2z x =? n
  | PyInt n, PyBool x => n =? Z.b2z x
  | PyInt m, PyInt n => m =? n
  | PyBool x, PyFloat q => Qeq_bool (inject_Z (Z.b2z x)) q
  | PyFloat q, PyBool x => Qeq_bool q (inject_Z (Z.b2z x))
  | PyInt n, PyFloat q => Qeq_bool (inject_Z n) q
  | PyFloat q, PyInt n => Qeq_bool q (inject_Z n)
  | PyFloat q, PyFloat r => Qeq_bool q r
  | PyStr s, PyStr t => String.eqb s t
  | PyMaterialBalanceType x, PyMaterialBalanceType y => bool_decide (x = y)
  | PyEnergyBalanceType x, PyEnergyBalanceType y => bool_decide (x = y)
  | PyMomentumBalanceType x, PyMomentumBalanceType y => bool_decide (x = y)
  | PyUseDefault, PyUseDefault => true
  | PyParameterBlock p, PyParameterBlock q => bool_decide (p = q)
  | PyObject i, PyObject j => bool_decide (i = j)
  | _, _ => false
  end.

(** [a != b] *)
Definition py_ne (a b : pyval) : bool := negb (py_eq a b).

(** [a is True]: identity with the singleton [True]. *)
Definition py_is_True (a : pyval) : bool :=
  match a with PyBool true => true | _ => false end.

(** [v in domain] for a list [domain]. *)
Definition py_in (v : pyval) (domain : list pyval) : bool :=
  existsb (py_eq v) domain.

(** ** Configuration values ([pyomo.common.config]) *)

Inductive EnumClass := MaterialBalanceType_cls | EnergyBalanceType_cls | MomentumBalanceType_cls.

(** [v in cls] for an enumeration class: membership. *)
Definition py_in_enum (v : pyval) (cls : EnumClass) : bool :=
  match cls, v with
  | MaterialBalanceType_cls, PyMaterialBalanceType _ => true
  | EnergyBalanceType_cls, PyEnergyBalanceType _ => true
  | MomentumBalanceType_cls, PyMomentumBalanceType _ => true
  | _, _ => false
  end.

Inductive Domain :=
| In_list (domain : list pyval)      (* [In([...])] *)
| In_enum (cls : EnumClass)          (* [In(EnumClass)] *)
| is_physical_parameter_block.       (* [idaes.core.util.config] *)

(** The values a domain lets through.  [In(domain)] returns the value
    unchanged when [value in domain]; [is_physical_parameter_block] lets
    through the valid values the option's documentation names: [useDefault]
    and a property parameter block. *)
Definition in_domain (d : Domain) (v : pyval) : bool :=
  match d with
  | In_list domain => py_in v domain
  | In_enum cls => py_in_enum v cls
  | is_physical_parameter_block =>
      match v with
      | PyUseDefault | PyParameterBlock _ => true
      | _ => false
      end
  end.

Record ConfigValue := {
  default : pyval;
  domain : Domain;
  description : string;
  doc : string
}.

(** [ConfigValue._cast]: [None] is returned as it is, without consulting
    the domain; any other value is handed to the domain, and whatever the
    domain raises comes out as a [ValueError]. *)
Definition cast (decl : ConfigValue) (v : pyval) : result pyval :=
  match v with
  | PyNone => Ok PyNone
  | _ => if in_domain (domain decl) v then Ok v else Raise ValueError
  end.

(** [ConfigValue.set_value] on the entry of the user's dictionary for this
    option; an option without entry keeps its declared default.  A
    dictionary is never in one of the scalar domains. *)
Definition set_value (decl : ConfigValue) (arg : option pyarg) : result pyval :=
  match arg with
  | None => Ok (default decl)
  | Some (Scalar v) => cast decl v
  | Some (Dict _) => Raise ValueError
  end.

(** [ConfigBlock(implicit=True).set_value]: [None] leaves the block as it
    is, a dictionary sets (and implicitly declares) its keys, anything else
    raises. *)
Definition set_block (arg : option pyarg) : result (gmap string pyval) :=
  match arg with
  | None | Some (Scalar PyNone) => Ok ∅
  | Some (Dict d) => Ok d
  | Some (Scalar _) => Raise ValueError
  end.

(** ** [FlashData.CONFIG] *)

Module CONFIG.

Definition dynamic : ConfigValue := {|
  domain := In_list [PyBool false];
  default := PyBool false;
  description := "Dynamic model flag - must be False";
  doc := "Indicates whether this model will be dynamic or not,
**default** = False. Flash units do not support dynamic behavior."
|}.

Definition has_holdup : ConfigValue := {|
  default := PyBool false;
  domain := In_list [PyBool false];
  description := "Holdup construction flag - must be False";
  doc := "Indicates whether holdup terms should be constructed or not.
**default** - False. Flash units do not have defined volume, thus
this must be False."
|}.

Definition material_balance_type : ConfigValue := {|
  default := PyMaterialBalanceType MaterialBalanceType.componentPhase;
  domain := In_enum MaterialBalanceType_cls;
  description := "Material balance construction flag";
  doc := "Indicates what type of mass balance should be constructed,
**default** - MaterialBalanceType.componentPhase.
**Valid values:** {
**MaterialBalanceType.none** - exclude material balances,
**MaterialBalanceType.componentPhase** - use phase component balances,
**MaterialBalanceType.componentTotal** - use total component balances,
**MaterialBalanceType.elementTotal** - use total element balances,
**MaterialBalanceType.total** - use total material balance.}"
|}.

Definition energy_balance_type : ConfigValue := {|
  default := PyEnergyBalanceType EnergyBalanceType.enthalpyTotal;
  domain := In_enum EnergyBalanceType_cls;
  description := "Energy balance construction flag";
  doc := "Indicates what type of energy balance should be constructed,
**default** - EnergyBalanceType.enthalpyTotal.
**Valid values:** {
**EnergyBalanceType.none** - exclude energy balances,
**EnergyBalanceType.enthalpyTotal** - single enthalpy balance for material,
**EnergyBalanceType.enthalpyPhase** - enthalpy balances for each phase,
**EnergyBalanceType.energyTotal** - single energy balance for material,
**EnergyBalanceType.energyPhase** - energy balances for each phase.}"
|}.

Definition momentum_balance_type : ConfigValue := {|
  default := PyMomentumBalanceType MomentumBalanceType.pressureTotal;
  domain := In_enum MomentumBalanceType_cls;
  description := "Momentum balance construction flag";
  doc := "Indicates what type of momentum balance should be constructed,
**default** - MomentumBalanceType.pressureTotal.
**Valid values:** {
**MomentumBalanceType.none** - exclude momentum balances,
**MomentumBalanceType.pressureTotal** - single pressure balance for material,
**MomentumBalanceType.pressurePhase** - pressure balances for each phase,
**MomentumBalanceType.momentumTotal** - single momentum balance for material,
**MomentumBalanceType.momentumPhase** - momentum balances for each phase.}"
|}.

Definition has_heat_transfer : ConfigValue := {|
  default := PyBool true;
  domain := In_list [PyBool true; PyBool false];
  description := "Heat transfer term construction flag";
  doc := "Indicates whether terms for heat transfer should be constructed,
**default** - False.
**Valid values:** {
**True** - include heat transfer terms,
**False** - exclude heat transfer terms.}"
|}.

Definition has_pressure_change : ConfigValue := {|
  default := PyBool true;
  domain := In_list [PyBool true; PyBool false];
  description := "Pressure change term construction flag";
  doc := "Indicates whether terms for pressure change should be
constructed,
**default** - True.
**Valid values:** {
**True** - include pressure change terms,
**False** - exclude pressure change terms.}"
|}.

Definition property_package : ConfigValue := {|
  default := PyUseDefault;
  domain := is_physical_parameter_block;
  description := "Property package to use for control volume";
  doc := "Property parameter object used to define property calculations,
**default** - useDefault.
**Valid values:** {
**useDefault** - use default package from parent model or flowsheet,
**PropertyParameterObject** - a PropertyParameterBlock object.}"
|}.

(** The scalar options, in declaration order.  [property_package_args] is
    declared after them as [ConfigBlock(implicit=True)]. *)
Definition declared : list (string * ConfigValue) := [
  ("dynamic", dynamic);
  ("has_holdup", has_holdup);
  ("material_balance_type", material_balance_type);
  ("energy_balance_type", energy_balance_type);
  ("momentum_balance_type", momentum_balance_type);
  ("has_heat_transfer", has_heat_transfer);
  ("has_pressure_change", has_pressure_change);
  ("property_package", property_package)
].

Definition keys : list string := declared.*1 ++ ["property_package_args"].

End CONFIG.

(** The configuration object of one Flash unit: [self.config]. *)
Record FlashConfig := {
  dynamic : pyval;
  has_holdup : pyval;
  material_balance_type : pyval;
  energy_balance_type : pyval;
  momentum_balance_type : pyval;
  has_heat_transfer : pyval;
  has_pressure_change : pyval;
  property_package : pyval;
  property_package_args : gmap string pyval
}.

(** A key that the block does not declare raises: [CONFIG] is not implicit. *)
Definition check_keys (kwargs : gmap string pyarg) : result unit :=
  if bool_decide (dom kwargs ⊆ list_to_set CONFIG.keys) then Ok tt else Raise ValueError.

(** [Flash(default=kwargs)]: the class-level [CONFIG] is instantiated with
    the user's dictionary; every given value goes through the domain of its
    option, every option left out takes its declared default. *)
Definition Flash_config (kwargs : gmap string pyarg) : result FlashConfig :=
  _ ← check_keys kwargs;
  dynamic ← set_value CONFIG.dynamic (kwargs !! "dynamic");
  has_holdup ← set_value CONFIG.has_holdup (kwargs !! "has_holdup");
  material_balance_type ←
    set_value CONFIG.material_balance_type (kwargs !! "material_balance_type");
  energy_balance_type ←
    set_value CONFIG.energy_balance_type (kwargs !! "energy_balance_type");
  momentum_balance_type ←
    set_value CONFIG.momentum_balance_type (kwargs !! "momentum_balance_type");
  has_heat_transfer ←
    set_value CONFIG.has_heat_transfer (kwargs !! "has_heat_transfer");
  has_pressure_change ←
    set_value CONFIG.has_pressure_change (kwargs !! "has_pressure_change");
  property_package ← set_value CONFIG.property_package (kwargs !! "property_package");
  property_package_args ← set_block (kwargs !! "property_package_args");
  Ok {| dynamic := dynamic;
        has_holdup := has_holdup;
        material_balance_type := material_balance_type;
        energy_balance_type := energy_balance_type;
        momentum_balance_type := momentum_balance_type;
        has_heat_transfer := has_heat_transfer;
        has_pressure_change := has_pressure_change;
        property_package := property_package;
        property_package_args := property_package_args |}.

(** ** The objects [build] creates *)

(** The methods [build] calls on its control volume, with their keyword
    arguments. *)
Inductive cv_call :=
| add_state_blocks (has_phase_equilibrium : bool)
| add_material_balances (balance_type : pyval) (has_phase_equilibrium : bool)
| add_energy_balances (balance_type : pyval) (has_heat_transfer : pyval)
| add_momentum_balances (balance_type : pyval) (has_pressure_change : pyval).

(** A [ControlVolume0DBlock]: its [default={...}] arguments and the calls
    made on it so far, oldest first. *)
Record ControlVolume0DBlock := {
  cv_dynamic : pyval;
  cv_has_holdup : pyval;
  cv_property_package : pyval;
  cv_property_package_args : gmap string pyval;
  cv_calls : list cv_call
}.

Definition cv_call_method (c : cv_call) (cv : ControlVolume0DBlock) : ControlVolume0DBlock :=
  {| cv_dynamic := cv_dynamic cv;
     cv_has_holdup := cv_has_holdup cv;
     cv_property_package := cv_property_package cv;
     cv_property_package_args := cv_property_package_args cv;
     cv_calls := cv_calls cv ++ [c] |}.

(** An attribute path from the unit: [["control_volume"; "heat"]] stands
    for [self.control_volume.heat]. *)
Definition attr_path := list string.

(** A [Separator]: its [default={...}] arguments. *)
Record Separator := {
  sep_property_package : pyval;
  sep_property_package_args : gmap string pyval;
  outlet_list : list string;
  split_basis : SplittingType.t;
  ideal_separation : bool;
  ideal_split_map : gmap string string;
  mixed_state_block : attr_path
}.

Inductive Port :=
| InletPort                      (* made by [add_inlet_port()] *)
| PortExtends (source : attr_path).  (* [Port(extends=...)] *)

(** What an attribute of the unit block holds. *)
Inductive component :=
| ControlVolume (cv : ControlVolume0DBlock)
| SeparatorBlock (s : Separator)
| PortObject (p : Port)
| ObjectReference (target : attr_path).

(** The unit block [self]: its attributes by name. *)
Abbreviation FlashBlock := (gmap string component).

(** [self.control_volume.<method>(...)]: the call lands on the object the
    attribute holds. *)
Definition on_control_volume (c : cv_call) (self : FlashBlock) : FlashBlock :=
  alter (fun o => match o with
                  | ControlVolume cv => ControlVolume (cv_call_method c cv)
                  | other => other
                  end) "control_volume" self.

(** [self.add_inlet_port()] of the unit-model base class, called without
    arguments: the port is the attribute [inlet] (the name under which
    [_get_stream_table_contents] reads it back). *)
Definition add_inlet_port (self : FlashBlock) : FlashBlock :=
  <["inlet" := PortObject InletPort]> self.

(** [add_object_reference(self, attr_name, ref_obj)] *)
Definition add_object_reference (self : FlashBlock) (attr_name : string)
    (ref_obj : attr_path) : FlashBlock :=
  <[attr_name := ObjectReference ref_obj]> self.

(** [property_package.phase_list]: only a parameter block has the attribute. *)
Definition getattr_phase_list (property_package : pyval) : result (list string) :=
  match property_package with
  | PyParameterBlock pp => Ok (phase_list pp)
  | _ => Raise AttributeError
  end.

(** The loop [for p in phase_list: split_map[p] = p], from [split_map = {}]. *)
Definition make_split_map (phases : list string) : gmap string string :=
  foldl (fun split_map p => <[p := p]> split_map) ∅ phases.

(** ** [FlashData.build] *)

Definition build (config : FlashConfig) : result FlashBlock :=
  let self : FlashBlock := ∅ in
  (* Build Control Volume *)
  let self := <["control_volume" := ControlVolume {|
      cv_dynamic := dynamic config;
      cv_has_holdup := has_holdup config;
      cv_property_package := property_package config;
      cv_property_package_args := property_package_args config;
      cv_calls := [] |}]> self in
  let self := on_control_volume (add_state_blocks true) self in
  let self := on_control_volume
      (add_material_balances (material_balance_type config) true) self in
  let self := on_control_volume
      (add_energy_balances (energy_balance_type config) (has_heat_transfer config)) self in
  let self := on_control_volume
      (add_momentum_balances (momentum_balance_type config)
                             (has_pressure_change config)) self in
  (* Add Ports *)
  let self := add_inlet_port self in
  phases ← getattr_phase_list (property_package config);
  let split_map := make_split_map phases in
  let self := <["split" := SeparatorBlock {|
      sep_property_package := property_package config;
      sep_property_package_args := property_package_args config;
      outlet_list := ["Vap"; "Liq"];
      split_basis := SplittingType.phaseFlow;
      ideal_separation := true;
      ideal_split_map := split_map;
      mixed_state_block := ["control_volume"; "properties_out"] |}]> self in
  let self := <["vap_outlet" := PortObject (PortExtends ["split"; "Vap"])]> self in
  let self := <["liq_outlet" := PortObject (PortExtends ["split"; "Liq"])]> self in
  (* Add references *)
  let self :=
    if py_is_True (has_heat_transfer config)
       && py_ne (energy_balance_type config) (PyStr "none")
    then add_object_reference self "heat_duty" ["control_volume"; "heat"]
    else self in
  let self :=
    if py_is_True (has_pressure_change config)
       && py_ne (momentum_balance_type config) (PyStr "none")
    then add_object_reference self "deltaP" ["control_volume"; "deltaP"]
    else self in
  Ok self.

(** The ports of a unit block. *)
Definition ports (self : FlashBlock) : gmap string Port :=
  omap (fun o => match o with PortObject p => Some p | _ => None end) self.

(** [Flash(default=kwargs)] followed by construction of the block. *)
Definition Flash (kwargs : gmap string pyarg) : result FlashBlock :=
  config ← Flash_config kwargs;
  build config.

(** [FlashData._get_performance_contents]: the labelled variables of the
    performance report, each the referenced object at [time_point]. *)
Definition get_performance_contents (self : FlashBlock) (time_point : Z)
    : gmap string (component * Z) :=
  let var_dict : gmap string (component * Z) := ∅ in
  let var_dict :=
    match self !! "heat_duty" with
    | Some heat_duty => <["Heat Duty" := (heat_duty, time_point)]> var_dict
    | None => var_dict
    end in
  let var_dict :=
    match self !! "deltaP" with
    | Some deltaP => <["Pressure Change" := (deltaP, time_point)]> var_dict
    | None => var_dict
    end in
  var_dict.

(** The two guards of the "Add references" part. *)
Definition heat_duty_guard (config : FlashConfig) : bool :=
  py_is_True (has_heat_transfer config)
  && py_ne (energy_balance_type config) (PyStr "none").

Definition deltaP_guard (config : FlashConfig) : bool :=
  py_is_True (has_pressure_change config)
  && py_ne (momentum_balance_type config) (PyStr "none").


(** ** Example inputs *)

(** A two-phase property package, as the BTX packages of the tests have. *)
Definition BTX : PhysicalParameterBlock :=
  {| pp_name := "properties"; phase_list := ["Liq"; "Vap"] |}.

(** [default={"property_package": BTX}] *)
Definition default_kwargs : gmap string pyarg :=
  {[ "property_package" := Scalar (PyParameterBlock BTX) ]}.

(** The configuration of [Flash(default={"property_package": BTX})]. *)
Definition default_config : FlashConfig :=
  {| dynamic := PyBool false;
     has_holdup := PyBool false;
     material_balance_type := PyMaterialBalanceType MaterialBalanceType.componentPhase;
     energy_balance_type := PyEnergyBalanceType EnergyBalanceType.enthalpyTotal;
     momentum_balance_type := PyMomentumBalanceType MomentumBalanceType.pressureTotal;
     has_heat_transfer := PyBool true;
     has_pressure_change := PyBool true;
     property_package := PyParameterBlock BTX;
     property_package_args := ∅ |}.

(** A Flash without energy and momentum balances that keeps the default
    [has_heat_transfer] and switches the pressure change off. *)
Definition no_balances_kwargs : gmap string pyarg :=
  {[ "property_package" := Scalar (PyParameterBlock BTX);
     "energy_balance_type" := Scalar (PyEnergyBalanceType EnergyBalanceType.none);
     "momentum_balance_type" := Scalar (PyMomentumBalanceType MomentumBalanceType.none);
     "has_pressure_change" := Scalar (PyBool false) ]}.


(** * The solution tests of the SolventReboiler

    [test_solvent_reboiler.py], classes [TestAbsorberVaporFlow] and
    [TestAbsorberHeatDuty].  The solved model is a valuation of the port
    variables; Python's floats are read as the rationals their decimal
    literals denote. *)

Module SolventReboilerTests.
Local Open Scope Q_scope.

Inductive port := bottoms | vapor_reboil.

(** [model.fs.unit.<port>.<var>[0]], [...mole_frac_comp[0, j]] and
    [model.fs.unit.heat_duty[0]]. *)
Inductive variable :=
| flow_mol (p : port)
| mole_frac_comp (p : port) (j : string)
| pressure (p : port)
| temperature (p : port)
| heat_duty.

(** [value(...)] on the solved model. *)
Definition solution := variable → Q.

(** The two shapes of assertion in [test_solution]:
    [assert pytest.approx(expected, rel=rel) == value(v)] and
    [assert value(v) <= bound]. *)
Inductive assertion :=
| assert_approx (expected rel : Q) (v : variable)
| assert_le (v : variable) (bound : Q).

(** [pytest.approx(expected, rel=rel) == actual]: the tolerance is the
    larger of [rel * abs(expected)] and the default absolute tolerance
    [1e-12]. *)
Definition approx (expected rel actual : Q) : bool :=
  Qle_bool (Qabs (expected - actual)) (Qmax (rel * Qabs expected) 1e-12).

Definition holds (value : solution) (a : assertion) : bool :=
  match a with
  | assert_approx expected rel v => approx expected rel (value v)
  | assert_le v bound => Qle_bool (value v) bound
  end.

(** A test method passes when none of its assertions fails. *)
Definition passes (value : solution) (test : list assertion) : bool :=
  forallb (holds value) test.

Module TestAbsorberVaporFlow.
Definition test_solution : list assertion := [
  assert_approx 74.33 1e-5 (flow_mol bottoms);
  assert_approx 0.0285221 1e-5 (mole_frac_comp bottoms "CO2");
  assert_approx 0.122455 1e-5 (mole_frac_comp bottoms "MEA");
  assert_approx 0.849023 1e-5 (mole_frac_comp bottoms "H2O");
  assert_approx 183700 1e-5 (pressure bottoms);
  assert_approx 393.773 1e-5 (temperature bottoms);
  assert_approx 9.56 1e-5 (flow_mol vapor_reboil);
  assert_approx 0.0643063 1e-5 (mole_frac_comp vapor_reboil "CO2");
  assert_approx 0.935693 1e-5 (mole_frac_comp vapor_reboil "H2O");
  assert_le (mole_frac_comp vapor_reboil "N2") 1e-8;
  assert_le (mole_frac_comp vapor_reboil "O2") 1e-8;
  assert_approx 183700 1e-5 (pressure vapor_reboil);
  assert_approx 393.773 1e-5 (temperature vapor_reboil);
  assert_approx 391220 1e-5 heat_duty
].
End TestAbsorberVaporFlow.

Module TestAbsorberHeatDuty.
(** The two [display()] calls that open this method print and assert
    nothing. *)
Definition test_solution : list assertion := [
  assert_approx 73.3324 1e-5 (flow_mol bottoms);
  assert_approx 0.0284629 1e-5 (mole_frac_comp bottoms "CO2");
  assert_approx 0.124121 1e-5 (mole_frac_comp bottoms "MEA");
  assert_approx 0.847416 1e-5 (mole_frac_comp bottoms "H2O");
  assert_approx 183700 1e-5 (pressure bottoms);
  assert_approx 393.934 1e-5 (temperature bottoms);
  assert_approx 10.5576 1e-5 (flow_mol vapor_reboil);
  assert_approx 0.0613360 1e-5 (mole_frac_comp vapor_reboil "CO2");
  assert_approx 0.938664 1e-5 (mole_frac_comp vapor_reboil "H2O");
  assert_le (mole_frac_comp vapor_reboil "N2") 1e-8;
  assert_le (mole_frac_comp vapor_reboil "O2") 1e-8;
  assert_approx 183700 1e-5 (pressure vapor_reboil);
  assert_approx 393.934 1e-5 (temperature vapor_reboil)
].
End TestAbsorberHeatDuty.



End SolventReboilerTests.

(** * The conservation test of the SolventReboiler

    [test_solvent_reboiler.py]: the [model] fixtures of the two test classes
    and their [test_conservation] method, which reads the same in both. *)

Module SolventReboilerConservation.
Import SolventReboilerTests.
Local Open Scope Q_scope.








(** ** Example inputs *)


(** The reference solution of [TestAbsorberVaporFlow.test_solution], with
    given [N2] and [O2] fractions in the vapor reboil stream. *)
Definition reference_solution (n2 o2 : Q) : solution := fun v =>
  match v with
  | flow_mol bottoms => 74.33
  | flow_mol vapor_reboil => 9.56
  | mole_frac_comp bottoms j =>
      if String.eqb j "CO2" then 0.0285221
      else if String.eqb j "MEA" then 0.122455
      else if String.eqb j "H2O" then 0.849023
      else 0
  | mole_frac_comp vapor_reboil j =>
      if String.eqb j "CO2" then 0.0643063
      else if String.eqb j "H2O" then 0.935693
      else if String.eqb j "N2" then n2
      else if String.eqb j "O2" then o2
      else 0
  | pressure _ => 183700
  | temperature _ => 393.773
  | heat_duty => 391220
  end.

End SolventReboilerConservation.

(** * Properties *)

(** ** Configuration validation *)

Lemma bind_Ok {A B} (m : result A) (f : A → result B) (b : B) :
  m ≫= f = Ok b → ∃ a, m = Ok a ∧ f a = Ok b.
Proof. destruct m as [a|e]; simpl; [eauto | discriminate]. Qed.

Lemma set_value_raises decl arg e : set_value decl arg = Raise e → e = ValueError.
Proof.
  destruct arg as [[v|d]|]; simpl; [|congruence..].
  unfold cast. destruct v; try congruence; destruct (in_domain _ _); congruence.
Qed.

Lemma set_block_raises arg e : set_block arg = Raise e → e = ValueError.
Proof. destruct arg as [[[]|d]|]; simpl; congruence. Qed.

Lemma check_keys_raises kwargs e : check_keys kwargs = Raise e → e = ValueError.
Proof. unfold check_keys. case_bool_decide; congruence. Qed.

Lemma set_value_Ok_scalar decl v w :
  set_value decl (Some (Scalar v)) = Ok w →
  w = v ∧ (v = PyNone ∨ in_domain (domain decl) v = true).
Proof.
  simpl. unfold cast.
  destruct v; [intros [= <-]; auto|..].
  all: destruct (in_domain _ _); [|discriminate].
  all: intros [= <-]; auto.
Qed.

(** What an accepted dictionary says about each option. *)
Lemma Flash_config_Ok kwargs config :
  Flash_config kwargs = Ok config →
  ∀ name decl, (name, decl) ∈ CONFIG.declared →
    ∃ w, set_value decl (kwargs !! name) = Ok w ∧
      (name = "dynamic" → w = dynamic config) ∧
      (name = "has_holdup" → w = has_holdup config) ∧
      (name = "material_balance_type" → w = material_balance_type config) ∧
      (name = "energy_balance_type" → w = energy_balance_type config) ∧
      (name = "momentum_balance_type" → w = momentum_balance_type config) ∧
      (name = "has_heat_transfer" → w = has_heat_transfer config) ∧
      (name = "has_pressure_change" → w = has_pressure_change config) ∧
      (name = "property_package" → w = property_package config).
Proof.
  unfold Flash_config. intros H.
  repeat (apply bind_Ok in H as (? & ? & H)).
  injection H as <-. simpl.
  intros name decl Hin. unfold CONFIG.declared in Hin.
  repeat (apply elem_of_cons in Hin as [[= -> ->]|Hin];
          [eexists; split; [eassumption|]; repeat split; intros; done|]).
  by apply elem_of_nil in Hin.
Qed.

(** Every exception of configuration validation is a [ValueError]. *)
Lemma Flash_config_raises kwargs e : Flash_config kwargs = Raise e → e = ValueError.
Proof.
  unfold Flash_config.
  destruct (check_keys kwargs) eqn:E0; simpl; [|intros [= <-]; eauto using check_keys_raises].
  repeat match goal with
  | |- context [set_value ?d ?a] =>
      let E := fresh "E" in
      destruct (set_value d a) eqn:E; simpl;
      [|intros [= <-]; eauto using set_value_raises]
  end.
  destruct (set_block _) eqn:E8; simpl; [discriminate|].
  intros [= <-]; eauto using set_block_raises.
Qed.


Lemma Flash_raises_of_config kwargs e :
  Flash_config kwargs = Raise e → Flash kwargs = Raise e.
Proof. unfold Flash. by intros ->. Qed.



Lemma py_in_enum_inv v cls :
  py_in_enum v cls = true →
  match cls with
  | MaterialBalanceType_cls => ∃ m, v = PyMaterialBalanceType m
  | EnergyBalanceType_cls => ∃ e, v = PyEnergyBalanceType e
  | MomentumBalanceType_cls => ∃ p, v = PyMomentumBalanceType p
  end.
Proof. destruct cls, v; simpl; try discriminate; eauto. Qed.

(** Whatever a declared option holds after validation is [None] or in its
    domain: given values were cast, and each default is in its own domain. *)
Lemma set_value_in_domain decl arg w :
  in_domain (domain decl) (default decl) = true →
  set_value decl arg = Ok w → w = PyNone ∨ in_domain (domain decl) w = true.
Proof.
  intros Hdef. destruct arg as [[v|d]|].
  - intros [<- ?]%set_value_Ok_scalar. done.
  - discriminate.
  - simpl. intros [= <-]. by right.
Qed.

Lemma Flash_config_in_domain kwargs config :
  Flash_config kwargs = Ok config →
  let ok decl w := w = PyNone ∨ in_domain (domain decl) w = true in
  ok CONFIG.dynamic (dynamic config) ∧
  ok CONFIG.has_holdup (has_holdup config) ∧
  ok CONFIG.material_balance_type (material_balance_type config) ∧
  ok CONFIG.energy_balance_type (energy_balance_type config) ∧
  ok CONFIG.momentum_balance_type (momentum_balance_type config) ∧
  ok CONFIG.has_heat_transfer (has_heat_transfer config) ∧
  ok CONFIG.has_pressure_change (has_pressure_change config) ∧
  ok CONFIG.property_package (property_package config).
Proof.
  unfold Flash_config. intros H.
  repeat (apply bind_Ok in H as (? & ? & H)).
  injection H as <-.
  cbn [dynamic has_holdup material_balance_type energy_balance_type
       momentum_balance_type has_heat_transfer has_pressure_change property_package].
  repeat split.
  all: eapply set_value_in_domain; [reflexivity | eassumption].
Qed.

(** ** The split map *)

Lemma foldl_split_map_lookup (phases : list string) (acc : gmap string string) (p : string) :
  foldl (fun split_map q => <[q := q]> split_map) acc phases !! p
  = if decide (p ∈ phases) then Some p else acc !! p.
Proof.
  induction phases as [|q phases IH] in acc |- *; cbn [foldl].
  - rewrite decide_False; [done | apply not_elem_of_nil].
  - rewrite IH. destruct (decide (p = q)) as [->|Hne].
    + rewrite lookup_insert_eq.
      rewrite (decide_True (P := q ∈ q :: phases)) by apply list_elem_of_here.
      by case_decide.
    + rewrite lookup_insert_ne by done.
      case_decide as H1; case_decide as H2; try done.
      * exfalso. apply H2. by apply list_elem_of_further.
      * apply elem_of_cons in H2 as [?|?]; done.
Qed.

Lemma make_split_map_lookup (phases : list string) (p : string) :
  make_split_map phases !! p = if decide (p ∈ phases) then Some p else None.
Proof. unfold make_split_map. by rewrite foldl_split_map_lookup, lookup_empty. Qed.

(** ** The block [build] leaves behind *)

(** [build] returns as soon as the property package has a [phase_list], and
    then every attribute of the block is known. *)
Lemma build_attributes (config : FlashConfig) (pp : PhysicalParameterBlock) :
  property_package config = PyParameterBlock pp →
  ∃ self, build config = Ok self ∧
    self !! "control_volume" = Some (ControlVolume {|
        cv_dynamic := dynamic config;
        cv_has_holdup := has_holdup config;
        cv_property_package := property_package config;
        cv_property_package_args := property_package_args config;
        cv_calls := [
          add_state_blocks true;
          add_material_balances (material_balance_type config) true;
          add_energy_balances (energy_balance_type config) (has_heat_transfer config);
          add_momentum_balances (momentum_balance_type config)
                                (has_pressure_change config)] |}) ∧
    self !! "split" = Some (SeparatorBlock {|
        sep_property_package := property_package config;
        sep_property_package_args := property_package_args config;
        outlet_list := ["Vap"; "Liq"];
        split_basis := SplittingType.phaseFlow;
        ideal_separation := true;
        ideal_split_map := make_split_map (phase_list pp);
        mixed_state_block := ["control_volume"; "properties_out"] |}) ∧
    ports self = {[ "inlet" := InletPort;
                    "vap_outlet" := PortExtends ["split"; "Vap"];
                    "liq_outlet" := PortExtends ["split"; "Liq"] ]} ∧
    self !! "heat_duty" =
      (if heat_duty_guard config
       then Some (ObjectReference ["control_volume"; "heat"]) else None) ∧
    self !! "deltaP" =
      (if deltaP_guard config
       then Some (ObjectReference ["control_volume"; "deltaP"]) else None).
Proof.
  intros Hpp. unfold build, heat_duty_guard, deltaP_guard.
  rewrite Hpp. cbn [getattr_phase_list mbind result_bind].
  eexists. split; [reflexivity|].
  destruct (py_is_True (has_heat_transfer config) && _),
           (py_is_True (has_pressure_change config) && _).
  all: repeat split; vm_compute; reflexivity.
Qed.

(** Without a parameter block for property package there is no
    [phase_list] to read and [build] raises. *)
Lemma build_raises (config : FlashConfig) :
  (∀ pp, property_package config ≠ PyParameterBlock pp) →
  build config = Raise AttributeError.
Proof.
  intros H. unfold build.
  destruct (property_package config) eqn:E; try reflexivity.
  by destruct (H pp).
Qed.

(** An option the dictionary leaves out holds its declared default. *)
Lemma Flash_config_default kwargs config name decl :
  Flash_config kwargs = Ok config →
  (name, decl) ∈ CONFIG.declared →
  kwargs !! name = None →
  ∃ w, w = default decl ∧
    (name = "material_balance_type" → w = material_balance_type config) ∧
    (name = "energy_balance_type" → w = energy_balance_type config) ∧
    (name = "momentum_balance_type" → w = momentum_balance_type config) ∧
    (name = "has_heat_transfer" → w = has_heat_transfer config) ∧
    (name = "has_pressure_change" → w = has_pressure_change config).
Proof.
  intros H Hin Hk.
  destruct (Flash_config_Ok _ _ H _ _ Hin) as (w & Hw & E).
  rewrite Hk in Hw. injection Hw as <-.
  eexists; split; [reflexivity|]. tauto.
Qed.


(** After validation the balance types are enumeration members (or [None]),
    and neither ever equals a string: the second conjunct of each guard is
    always true. *)
Lemma validated_guards kwargs config :
  Flash_config kwargs = Ok config →
  py_ne (energy_balance_type config) (PyStr "none") = true ∧
  py_ne (momentum_balance_type config) (PyStr "none") = true ∧
  heat_duty_guard config = py_is_True (has_heat_transfer config) ∧
  deltaP_guard config = py_is_True (has_pressure_change config).
Proof.
  intros H. apply Flash_config_in_domain in H as (_ & _ & _ & He & Hp & _).
  cbn [domain CONFIG.energy_balance_type CONFIG.momentum_balance_type in_domain]
    in He, Hp.
  unfold heat_duty_guard, deltaP_guard.
  destruct He as [He | [e He]%py_in_enum_inv], Hp as [Hp | [p Hp]%py_in_enum_inv].
  all: rewrite He, Hp; cbn [py_ne py_eq negb]; by rewrite !andb_true_r.
Qed.

(** ** The claims about the Flash unit *)




(** C2.  For every Flash unit whose property package is a parameter block,
    [build] returns a block with exactly three ports: the inlet port, and
    the outlet ports [vap_outlet] and [liq_outlet], which extend the [Vap]
    and [Liq] outlets of the separator [split]; that separator is configured
    with outlet list [["Vap", "Liq"]], split basis [phaseFlow], ideal
    separation [True], and an ideal split map that maps every phase of the
    package's [phase_list] to itself and holds nothing else. *)
Theorem C2_build_ports_and_separator (config : FlashConfig) (pp : PhysicalParameterBlock) :
  property_package config = PyParameterBlock pp →
  ∃ (self : FlashBlock) (s : Separator),
    build config = Ok self ∧
    ports self = {[ "inlet" := InletPort;
                    "vap_outlet" := PortExtends ["split"; "Vap"];
                    "liq_outlet" := PortExtends ["split"; "Liq"] ]} ∧
    self !! "split" = Some (SeparatorBlock s) ∧
    outlet_list s = ["Vap"; "Liq"] ∧
    split_basis s = SplittingType.phaseFlow ∧
    ideal_separation s = true ∧
    (∀ p, p ∈ phase_list pp → ideal_split_map s !! p = Some p) ∧
    (∀ p q, ideal_split_map s !! p = Some q → p ∈ phase_list pp ∧ q = p).
Proof.
  intros Hpp.
  destruct (build_attributes config pp Hpp) as (self & Hb & _ & Hs & Hports & _).
  eexists self, _. split; [exact Hb|]. split; [exact Hports|].
  split; [exact Hs|]. cbn [outlet_list split_basis ideal_separation ideal_split_map].
  split; [reflexivity|]. split; [reflexivity|]. split; [reflexivity|]. split.
  - intros p Hp. rewrite make_split_map_lookup. by rewrite decide_True.
  - intros p q Hq. rewrite make_split_map_lookup in Hq.
    case_decide; [|discriminate]. split; congruence.
Qed.

Lemma C2_build_ports_and_separator_witness :
  ∃ (self : FlashBlock) (s : Separator),
    build default_config = Ok self ∧
    ports self = {[ "inlet" := InletPort;
                    "vap_outlet" := PortExtends ["split"; "Vap"];
                    "liq_outlet" := PortExtends ["split"; "Liq"] ]} ∧
    self !! "split" = Some (SeparatorBlock s) ∧
    outlet_list s = ["Vap"; "Liq"] ∧
    split_basis s = SplittingType.phaseFlow ∧
    ideal_separation s = true ∧
    (∀ p, p ∈ phase_list BTX → ideal_split_map s !! p = Some p) ∧
    (∀ p q, ideal_split_map s !! p = Some q → p ∈ phase_list BTX ∧ q = p).
Proof. apply (C2_build_ports_and_separator default_config BTX). reflexivity. Defined.

(** C3.  For every Flash unit, [build] makes four declarations on its
    control volume, in this order: state blocks with phase equilibrium
    enabled; material balances of the configured type with phase equilibrium
    enabled; energy balances of the configured type with the heat-transfer
    term as [config.has_heat_transfer] says; momentum balances of the
    configured type with the pressure-change term as
    [config.has_pressure_change] says.  A balance type the user leaves out is
    [MaterialBalanceType.componentPhase], [EnergyBalanceType.enthalpyTotal]
    and [MomentumBalanceType.pressureTotal] respectively. *)
Theorem C3_build_control_volume_balances
    (kwargs : gmap string pyarg) (config : FlashConfig) (pp : PhysicalParameterBlock) :
  Flash_config kwargs = Ok config →
  property_package config = PyParameterBlock pp →
  ∃ (self : FlashBlock) (cv : ControlVolume0DBlock),
    build config = Ok self ∧
    self !! "control_volume" = Some (ControlVolume cv) ∧
    cv_calls cv = [
      add_state_blocks true;
      add_material_balances (material_balance_type config) true;
      add_energy_balances (energy_balance_type config) (has_heat_transfer config);
      add_momentum_balances (momentum_balance_type config) (has_pressure_change config)] ∧
    (kwargs !! "material_balance_type" = None →
       material_balance_type config
       = PyMaterialBalanceType MaterialBalanceType.componentPhase) ∧
    (kwargs !! "energy_balance_type" = None →
       energy_balance_type config = PyEnergyBalanceType EnergyBalanceType.enthalpyTotal) ∧
    (kwargs !! "momentum_balance_type" = None →
       momentum_balance_type config
       = PyMomentumBalanceType MomentumBalanceType.pressureTotal).
Proof.
  intros Hc Hpp.
  destruct (build_attributes config pp Hpp) as (self & Hb & Hcv & _).
  eexists self, _. split; [exact Hb|]. split; [exact Hcv|].
  split; [reflexivity|]. repeat split; intros Hk.
  - destruct (Flash_config_default _ _ "material_balance_type"
                CONFIG.material_balance_type Hc) as (w & -> & E & _); [|done|].
    + unfold CONFIG.declared. do 2 apply list_elem_of_further. apply list_elem_of_here.
    + by rewrite <- E.
  - destruct (Flash_config_default _ _ "energy_balance_type"
                CONFIG.energy_balance_type Hc) as (w & -> & _ & E & _); [|done|].
    + unfold CONFIG.declared. do 3 apply list_elem_of_further. apply list_elem_of_here.
    + by rewrite <- E.
  - destruct (Flash_config_default _ _ "momentum_balance_type"
                CONFIG.momentum_balance_type Hc) as (w & -> & _ & _ & E & _); [|done|].
    + unfold CONFIG.declared. do 4 apply list_elem_of_further. apply list_elem_of_here.
    + by rewrite <- E.
Qed.

Lemma C3_build_control_volume_balances_witness :
  ∃ (self : FlashBlock) (cv : ControlVolume0DBlock),
    build default_config = Ok self ∧
    self !! "control_volume" = Some (ControlVolume cv) ∧
    cv_calls cv = [
      add_state_blocks true;
      add_material_balances (material_balance_type default_config) true;
      add_energy_balances (energy_balance_type default_config)
                          (has_heat_transfer default_config);
      add_momentum_balances (momentum_balance_type default_config)
                            (has_pressure_change default_config)] ∧
    (default_kwargs !! "material_balance_type" = None →
       material_balance_type default_config
       = PyMaterialBalanceType MaterialBalanceType.componentPhase) ∧
    (default_kwargs !! "energy_balance_type" = None →
       energy_balance_type default_config
       = PyEnergyBalanceType EnergyBalanceType.enthalpyTotal) ∧
    (default_kwargs !! "momentum_balance_type" = None →
       momentum_balance_type default_config
       = PyMomentumBalanceType MomentumBalanceType.pressureTotal).
Proof.
  apply (C3_build_control_volume_balances default_kwargs default_config BTX).
  - vm_compute. reflexivity.
  - reflexivity.
Defined.



(** C10.  The declared default of [has_heat_transfer] is [True], although
    the option's own doc text says "**default** - False."; the default of
    [has_pressure_change] is [True] as well.  So every Flash constructed
    without these two options has both flags [True], declares its energy
    balances with the heat-transfer term and its momentum balances with the
    pressure-change term, and exposes [heat_duty] and [deltaP], which its
    performance report lists as "Heat Duty" and "Pressure Change". *)
Theorem C10_heat_transfer_and_pressure_change_default_True :
  default CONFIG.has_heat_transfer = PyBool true ∧
  String.index 0 "**default** - False." (doc CONFIG.has_heat_transfer) = Some 65%nat ∧
  default CONFIG.has_pressure_change = PyBool true ∧
  ∀ (kwargs : gmap string pyarg) (config : FlashConfig) (pp : PhysicalParameterBlock),
    kwargs !! "has_heat_transfer" = None →
    kwargs !! "has_pressure_change" = None →
    Flash_config kwargs = Ok config →
    property_package config = PyParameterBlock pp →
    has_heat_transfer config = PyBool true ∧
    has_pressure_change config = PyBool true ∧
    ∃ (self : FlashBlock) (cv : ControlVolume0DBlock),
      build config = Ok self ∧
      self !! "control_volume" = Some (ControlVolume cv) ∧
      add_energy_balances (energy_balance_type config) (PyBool true) ∈ cv_calls cv ∧
      add_momentum_balances (momentum_balance_type config) (PyBool true) ∈ cv_calls cv ∧
      self !! "heat_duty" = Some (ObjectReference ["control_volume"; "heat"]) ∧
      self !! "deltaP" = Some (ObjectReference ["control_volume"; "deltaP"]) ∧
      ∀ time_point : Z,
        get_performance_contents self time_point
        = {[ "Heat Duty" := (ObjectReference ["control_volume"; "heat"], time_point);
             "Pressure Change" :=
               (ObjectReference ["control_volume"; "deltaP"], time_point) ]}.
Proof.
  split; [reflexivity|]. split; [vm_compute; reflexivity|]. split; [reflexivity|].
  intros kwargs config pp Hh Hp Hc Hpp.
  assert (has_heat_transfer config = PyBool true) as Eh.
  { destruct (Flash_config_default _ _ "has_heat_transfer" CONFIG.has_heat_transfer Hc)
      as (w & -> & _ & _ & _ & E & _); [|done|by rewrite <- E].
    unfold CONFIG.declared. do 5 apply list_elem_of_further. apply list_elem_of_here. }
  assert (has_pressure_change config = PyBool true) as Ep.
  { destruct (Flash_config_default _ _ "has_pressure_change" CONFIG.has_pressure_change Hc)
      as (w & -> & _ & _ & _ & _ & E); [|done|by rewrite <- E].
    unfold CONFIG.declared. do 6 apply list_elem_of_further. apply list_elem_of_here. }
  split; [exact Eh|]. split; [exact Ep|].
  destruct (validated_guards _ _ Hc) as (_ & _ & Hg1 & Hg2).
  destruct (build_attributes config pp Hpp) as (self & Hb & Hcv & _ & _ & Hhd & Hdp).
  rewrite Hg1, Eh in Hhd. rewrite Hg2, Ep in Hdp. cbn [py_is_True] in Hhd, Hdp.
  eexists self, _. split; [exact Hb|]. split; [exact Hcv|].
  cbn [cv_calls]. rewrite Eh, Ep.
  split; [do 2 apply list_elem_of_further; apply list_elem_of_here|].
  split; [do 3 apply list_elem_of_further; apply list_elem_of_here|].
  split; [exact Hhd|]. split; [exact Hdp|].
  intros time_point. unfold get_performance_contents. rewrite Hhd, Hdp.
  apply insert_insert_ne. discriminate.
Qed.

Lemma C10_heat_transfer_and_pressure_change_default_True_witness :
  has_heat_transfer default_config = PyBool true ∧
  has_pressure_change default_config = PyBool true ∧
  ∃ (self : FlashBlock) (cv : ControlVolume0DBlock),
    build default_config = Ok self ∧
    self !! "control_volume" = Some (ControlVolume cv) ∧
    add_energy_balances (energy_balance_type default_config) (PyBool true)
      ∈ cv_calls cv ∧
    add_momentum_balances (momentum_balance_type default_config) (PyBool true)
      ∈ cv_calls cv ∧
    self !! "heat_duty" = Some (ObjectReference ["control_volume"; "heat"]) ∧
    self !! "deltaP" = Some (ObjectReference ["control_volume"; "deltaP"]) ∧
    ∀ time_point : Z,
      get_performance_contents self time_point
      = {[ "Heat Duty" := (ObjectReference ["control_volume"; "heat"], time_point);
           "Pressure Change" :=
             (ObjectReference ["control_volume"; "deltaP"], time_point) ]}.
Proof.
  apply (proj2 (proj2 (proj2 C10_heat_transfer_and_pressure_change_default_True))
           default_kwargs default_config BTX).
  - vm_compute. reflexivity.
  - vm_compute. reflexivity.
  - vm_compute. reflexivity.
  - reflexivity.
Defined.

(** ** The solution tests of the SolventReboiler *)

Section SolventReboilerSolution.
Import SolventReboilerTests.
Local Open Scope Q_scope.





End SolventReboilerSolution.


(** * Further properties of the Flash unit *)

(** ** When a Flash is built *)

Lemma Flash_Ok_inv (kwargs : gmap string pyarg) (self : FlashBlock) :
  Flash kwargs = Ok self →
  ∃ config pp,
    Flash_config kwargs = Ok config ∧
    property_package config = PyParameterBlock pp ∧
    build config = Ok self.
Proof.
  unfold Flash. intros (config & Hc & Hb)%bind_Ok.
  destruct (property_package config) as [| | | | | | | | |pp|] eqn:Hpp.
  all: try (rewrite build_raises in Hb; [discriminate | intros ?; congruence]).
  eauto.
Qed.

(** The property package a validated configuration holds is the one the
    user gave. *)
Lemma Flash_config_property_package kwargs config pp :
  Flash_config kwargs = Ok config →
  property_package config = PyParameterBlock pp →
  kwargs !! "property_package" = Some (Scalar (PyParameterBlock pp)).
Proof.
  intros Hc Hpp.
  destruct (Flash_config_Ok _ _ Hc "property_package" CONFIG.property_package)
    as (w & Hw & E).
  { unfold CONFIG.declared. do 7 apply list_elem_of_further. apply list_elem_of_here. }
  assert (w = PyParameterBlock pp) as -> by (rewrite <- Hpp; apply E; reflexivity).
  destruct (kwargs !! "property_package") as [[v|d]|]; [|discriminate..].
  apply set_value_Ok_scalar in Hw as [-> _]. reflexivity.
Qed.

(** In the embedding, where the framework never refuses what [build] asks
    of it, a Flash is built exactly when its dictionary passes validation
    and names a property parameter block under [property_package]. *)
Lemma Flash_built_iff (kwargs : gmap string pyarg) :
  is_Ok (Flash kwargs) = true
  ↔ is_Ok (Flash_config kwargs) = true ∧
    ∃ pp, kwargs !! "property_package" = Some (Scalar (PyParameterBlock pp)).
Proof.
  split.
  - destruct (Flash kwargs) as [self|] eqn:E; [|discriminate]. intros _.
    apply Flash_Ok_inv in E as (config & pp & Hc & Hpp & _).
    rewrite Hc. split; [reflexivity|].
    exists pp. eauto using Flash_config_property_package.
  - intros [Hc [pp Hk]].
    destruct (Flash_config kwargs) as [config|] eqn:E; [|discriminate].
    destruct (Flash_config_Ok _ _ E "property_package" CONFIG.property_package)
      as (w & Hw & Hf).
    { unfold CONFIG.declared. do 7 apply list_elem_of_further. apply list_elem_of_here. }
    rewrite Hk in Hw. apply set_value_Ok_scalar in Hw as [-> _].
    assert (property_package config = PyParameterBlock pp) as Hpp
      by (symmetry; apply Hf; reflexivity).
    destruct (build_attributes config pp Hpp) as (self & Hb & _).
    unfold Flash. rewrite E. cbn [mbind result_bind]. by rewrite Hb.
Qed.

(** X1.  A dictionary that validation rejects never reaches [build]: the
    construction raises [ValueError].  And no Flash is built unless the
    dictionary names a property parameter block under [property_package]:
    with the option left out, [None] or [useDefault] there is no
    [phase_list] for [build] to read. *)
Theorem Flash_needs_valid_config_and_package (kwargs : gmap string pyarg) :
  (is_Ok (Flash_config kwargs) = false → Flash kwargs = Raise ValueError) ∧
  (is_Ok (Flash kwargs) = true →
   ∃ pp, kwargs !! "property_package" = Some (Scalar (PyParameterBlock pp))) ∧
  (kwargs !! "property_package" = None
   ∨ kwargs !! "property_package" = Some (Scalar PyNone)
   ∨ kwargs !! "property_package" = Some (Scalar PyUseDefault) →
   is_Ok (Flash kwargs) = false).
Proof.
  split; [|split].
  - destruct (Flash_config kwargs) as [config|e] eqn:E; [discriminate|]. intros _.
    pose proof (Flash_config_raises _ _ E) as ->.
    by apply Flash_raises_of_config.
  - intros H. by apply Flash_built_iff in H as [_ H].
  - intros H. apply not_true_is_false. intros [_ [pp Hpp]]%Flash_built_iff.
    destruct H as [H | [H | H]]; congruence.
Qed.

Lemma Flash_needs_valid_config_and_package_witness :
  Flash (<["dynamic" := Scalar (PyBool true)]> default_kwargs) = Raise ValueError ∧
  (∃ pp, default_kwargs !! "property_package" = Some (Scalar (PyParameterBlock pp))) ∧
  is_Ok (Flash ∅) = false.
Proof.
  split; [|split].
  - apply (proj1 (Flash_needs_valid_config_and_package _)). vm_compute. reflexivity.
  - apply (proj1 (proj2 (Flash_needs_valid_config_and_package _))).
    vm_compute. reflexivity.
  - apply (proj2 (proj2 (Flash_needs_valid_config_and_package _))).
    left. vm_compute. reflexivity.
Defined.

(** ** What the built block holds *)




(** ** What validation stores *)



(** ** Which dictionaries validation accepts *)






(** ** What the sub-blocks are given *)

Lemma Flash_config_property_package_args kwargs config :
  Flash_config kwargs = Ok config →
  property_package_args config
  = match kwargs !! "property_package_args" with
    | Some (Dict d) => d
    | _ => ∅
    end.
Proof.
  unfold Flash_config. intros H.
  repeat (apply bind_Ok in H as (? & ? & H)).
  injection H as <-. cbn [property_package_args].
  match goal with H : set_block _ = Ok _ |- _ => rename H into Hb end.
  destruct (kwargs !! "property_package_args") as [[[]|d]|]; simpl in Hb; congruence.
Qed.

(** X5.  The control volume and the separator of a built Flash are given the
    same property package, the one the user named, and the same property
    package arguments, the user's dictionary unchanged (empty when the user
    gave none or [None]); the separator's mixed state block is the control
    volume's [properties_out]. *)
Theorem Flash_sub_blocks_share_package
    (kwargs : gmap string pyarg) (self : FlashBlock) :
  Flash kwargs = Ok self →
  ∃ (pp : PhysicalParameterBlock) (cv : ControlVolume0DBlock) (s : Separator),
    kwargs !! "property_package" = Some (Scalar (PyParameterBlock pp)) ∧
    self !! "control_volume" = Some (ControlVolume cv) ∧
    self !! "split" = Some (SeparatorBlock s) ∧
    cv_property_package cv = PyParameterBlock pp ∧
    sep_property_package s = PyParameterBlock pp ∧
    cv_property_package_args cv = sep_property_package_args s ∧
    sep_property_package_args s
    = match kwargs !! "property_package_args" with
      | Some (Dict d) => d
      | _ => ∅
      end ∧
    mixed_state_block s = ["control_volume"; "properties_out"].
Proof.
  intros (config & pp & Hc & Hpp & Hb)%Flash_Ok_inv.
  destruct (build_attributes config pp Hpp) as (self' & Hb' & Hcv & Hs & _).
  assert (self' = self) as -> by congruence.
  eexists pp, _, _.
  split; [eauto using Flash_config_property_package|].
  split; [exact Hcv|]. split; [exact Hs|].
  cbn [cv_property_package sep_property_package cv_property_package_args
       sep_property_package_args mixed_state_block].
  rewrite (Flash_config_property_package_args _ _ Hc). by rewrite Hpp.
Qed.

Lemma Flash_sub_blocks_share_package_witness :
  ∃ self : FlashBlock,
    Flash default_kwargs = Ok self ∧
    ∃ (pp : PhysicalParameterBlock) (cv : ControlVolume0DBlock) (s : Separator),
      default_kwargs !! "property_package" = Some (Scalar (PyParameterBlock pp)) ∧
      self !! "control_volume" = Some (ControlVolume cv) ∧
      self !! "split" = Some (SeparatorBlock s) ∧
      cv_property_package cv = PyParameterBlock pp ∧
      sep_property_package s = PyParameterBlock pp ∧
      cv_property_package_args cv = sep_property_package_args s ∧
      sep_property_package_args s
      = match default_kwargs !! "property_package_args" with
        | Some (Dict d) => d
        | _ => ∅
        end ∧
      mixed_state_block s = ["control_volume"; "properties_out"].
Proof.
  eexists. split; [vm_compute; reflexivity|].
  apply (Flash_sub_blocks_share_package default_kwargs).
  vm_compute. reflexivity.
Defined.

(** ** The performance report *)

(** X6.  The performance report of a built Flash lists "Heat Duty" exactly
    when [has_heat_transfer is True] and "Pressure Change" exactly when
    [has_pressure_change is True], each as the control volume's variable at
    the requested time point, and lists nothing else. *)
Theorem Flash_performance_contents
    (kwargs : gmap string pyarg) (self : FlashBlock) (time_point : Z) :
  Flash kwargs = Ok self →
  ∃ config,
    Flash_config kwargs = Ok config ∧
    ∀ label : string,
      get_performance_contents self time_point !! label
      = if decide (label = "Heat Duty") then
          if py_is_True (has_heat_transfer config)
          then Some (ObjectReference ["control_volume"; "heat"], time_point)
          else None
        else if decide (label = "Pressure Change") then
          if py_is_True (has_pressure_change config)
          then Some (ObjectReference ["control_volume"; "deltaP"], time_point)
          else None
        else None.
Proof.
  intros (config & pp & Hc & Hpp & Hb)%Flash_Ok_inv.
  exists config. split; [exact Hc|]. intros label.
  destruct (build_attributes config pp Hpp) as (self' & Hb' & _ & _ & _ & Hh & Hd).
  assert (self' = self) as -> by congruence.
  destruct (validated_guards _ _ Hc) as (_ & _ & Hg1 & Hg2).
  rewrite Hg1 in Hh. rewrite Hg2 in Hd.
  unfold get_performance_contents. rewrite Hh, Hd.
  destruct (py_is_True (has_heat_transfer config)),
           (py_is_True (has_pressure_change config)).
  all: repeat case_decide; subst; simplify_map_eq; done.
Qed.

Lemma Flash_performance_contents_witness :
  ∃ self : FlashBlock,
    Flash no_balances_kwargs = Ok self ∧
    ∃ config,
      Flash_config no_balances_kwargs = Ok config ∧
      ∀ label : string,
        get_performance_contents self 0 !! label
        = if decide (label = "Heat Duty") then
            if py_is_True (has_heat_transfer config)
            then Some (ObjectReference ["control_volume"; "heat"], 0)
            else None
          else if decide (label = "Pressure Change") then
            if py_is_True (has_pressure_change config)
            then Some (ObjectReference ["control_volume"; "deltaP"], 0)
            else None
          else None.
Proof.
  eexists. split; [vm_compute; reflexivity|].
  apply (Flash_performance_contents no_balances_kwargs).
  vm_compute. reflexivity.
Defined.




(** ** The split map as a function of the phase list *)

(** X8.  The split map has one entry per distinct phase of [phase_list], the
    phase mapped to itself: its keys are the phases, its size is the number
    of distinct phases, and it is empty for an empty phase list. *)
Theorem make_split_map_dom_size (phases : list string) :
  dom (make_split_map phases) = list_to_set phases ∧
  size (make_split_map phases) = length (remove_dups phases) ∧
  (make_split_map phases = ∅ ↔ phases = []) ∧
  (∀ p q, make_split_map phases !! p = Some q → q = p).
Proof.
  assert (Hdom : dom (make_split_map phases) = list_to_set phases).
  { apply set_eq. intros p.
    rewrite elem_of_dom, elem_of_list_to_set, make_split_map_lookup.
    destruct (decide (p ∈ phases)) as [Hp|Hp]; split; intros H'.
    all: first [done | by eexists | by destruct H']. }
  split; [exact Hdom|]. split; [|split].
  - rewrite <- size_dom, Hdom.
    rewrite <- (size_list_to_set (C := gset string) (remove_dups phases))
      by apply NoDup_remove_dups.
    f_equal. apply set_eq. intros p.
    by rewrite !elem_of_list_to_set, elem_of_remove_dups.
  - split.
    + intros He. destruct phases as [|p phases]; [done|].
      assert (make_split_map (p :: phases) !! p = Some p) as Hp.
      { rewrite make_split_map_lookup. rewrite decide_True; [done|].
        apply list_elem_of_here. }
      rewrite He in Hp. by rewrite lookup_empty in Hp.
    + intros ->. reflexivity.
  - intros p q. rewrite make_split_map_lookup. case_decide; congruence.
Qed.

Lemma make_split_map_dom_size_witness :
  dom (make_split_map ["Vap"; "Liq"; "Vap"]) = list_to_set ["Vap"; "Liq"; "Vap"] ∧
  size (make_split_map ["Vap"; "Liq"; "Vap"])
  = length (remove_dups ["Vap"; "Liq"; "Vap"]) ∧
  (make_split_map ["Vap"; "Liq"; "Vap"] = ∅ ↔ ["Vap"; "Liq"; "Vap"] = []) ∧
  (∀ p q, make_split_map ["Vap"; "Liq"; "Vap"] !! p = Some q → q = p).
Proof. apply (make_split_map_dom_size ["Vap"; "Liq"; "Vap"]). Defined.

(** X9.  The split map depends only on which phases occur in [phase_list],
    not on their order or repetitions, and the map of a concatenated list is
    the union of the maps of its parts. *)
Theorem make_split_map_set_of_phases (phases1 phases2 : list string) :
  ((∀ p, p ∈ phases1 ↔ p ∈ phases2) →
   make_split_map phases1 = make_split_map phases2) ∧
  make_split_map (phases1 ++ phases2)
  = make_split_map phases1 ∪ make_split_map phases2.
Proof.
  split.
  - intros H. apply map_eq. intros p. rewrite !make_split_map_lookup.
    specialize (H p). repeat case_decide; tauto.
  - apply map_eq. intros p.
    rewrite lookup_union, !make_split_map_lookup.
    repeat case_decide; try done.
    all: match goal with
         | H : ?x ∈ (_ ++ _)%list |- _ => apply elem_of_app in H; tauto
         | H : ?x ∉ (_ ++ _)%list |- _ => destruct H; apply elem_of_app; tauto
         end.
Qed.

Lemma make_split_map_set_of_phases_witness :
  ((∀ p, p ∈ ["Liq"; "Vap"] ↔ p ∈ ["Vap"; "Liq"; "Vap"]) →
   make_split_map ["Liq"; "Vap"] = make_split_map ["Vap"; "Liq"; "Vap"]) ∧
  make_split_map (["Liq"; "Vap"] ++ ["Vap"; "Liq"; "Vap"])
  = make_split_map ["Liq"; "Vap"] ∪ make_split_map ["Vap"; "Liq"; "Vap"].
Proof. apply (make_split_map_set_of_phases ["Liq"; "Vap"] ["Vap"; "Liq"; "Vap"]). Defined.

(** X10.  In a built Flash the ideal split map sends every phase to an
    outlet of the separator's outlet list exactly when every phase of the
    property package is named "Vap" or "Liq": a phase of any other name is
    mapped to an outlet the separator does not have. *)
Theorem Flash_split_map_targets_outlets
    (kwargs : gmap string pyarg) (self : FlashBlock) :
  Flash kwargs = Ok self →
  ∃ (pp : PhysicalParameterBlock) (s : Separator),
    kwargs !! "property_package" = Some (Scalar (PyParameterBlock pp)) ∧
    self !! "split" = Some (SeparatorBlock s) ∧
    ((∀ p o, ideal_split_map s !! p = Some o → o ∈ outlet_list s)
     ↔ ∀ p, p ∈ phase_list pp → p = "Vap" ∨ p = "Liq").
Proof.
  intros (config & pp & Hc & Hpp & Hb)%Flash_Ok_inv.
  destruct (build_attributes config pp Hpp) as (self' & Hb' & _ & Hs & _).
  assert (self' = self) as -> by congruence.
  eexists pp, _. split; [eauto using Flash_config_property_package|].
  split; [exact Hs|]. cbn [ideal_split_map outlet_list]. split.
  - intros H p Hp.
    assert (p ∈ ["Vap"; "Liq"]) as Ho.
    { apply (H p p). rewrite make_split_map_lookup. by rewrite decide_True. }
    apply elem_of_cons in Ho as [->|Ho]; [by left|].
    apply elem_of_cons in Ho as [->|Ho]; [by right|].
    by apply elem_of_nil in Ho.
  - intros H p o. rewrite make_split_map_lookup.
    case_decide as Hp; [|discriminate]. intros [= <-].
    destruct (H p Hp) as [-> | ->].
    + apply list_elem_of_here.
    + apply list_elem_of_further, list_elem_of_here.
Qed.

Lemma Flash_split_map_targets_outlets_witness :
  ∃ self : FlashBlock,
    Flash default_kwargs = Ok self ∧
    ∃ (pp : PhysicalParameterBlock) (s : Separator),
      default_kwargs !! "property_package" = Some (Scalar (PyParameterBlock pp)) ∧
      self !! "split" = Some (SeparatorBlock s) ∧
      ((∀ p o, ideal_split_map s !! p = Some o → o ∈ outlet_list s)
       ↔ ∀ p, p ∈ phase_list pp → p = "Vap" ∨ p = "Liq").
Proof.
  eexists. split; [vm_compute; reflexivity|].
  apply (Flash_split_map_targets_outlets default_kwargs).
  vm_compute. reflexivity.
Defined.

(** * Further properties of the SolventReboiler tests *)

Section SolventReboilerChecks.
Import SolventReboilerTests SolventReboilerConservation.
Local Open Scope Q_scope.

(** X11.  [test_solution] bounds the [N2] and [O2] fractions of the vapor
    reboil stream from above only: a solution that passes still passes when
    these two fractions are replaced by any values up to [1e-8], negative
    ones included. *)
Theorem test_solution_trace_bound_one_sided
    (test : list assertion) (value value' : solution) :
  test = TestAbsorberVaporFlow.test_solution
  ∨ test = TestAbsorberHeatDuty.test_solution →
  (∀ v, v ≠ mole_frac_comp vapor_reboil "N2" →
        v ≠ mole_frac_comp vapor_reboil "O2" → value' v = value v) →
  value' (mole_frac_comp vapor_reboil "N2") <= 1e-8 →
  value' (mole_frac_comp vapor_reboil "O2") <= 1e-8 →
  passes value test = true →
  passes value' test = true.
Proof.
  intros Ht Hsame HN HO. unfold passes.
  rewrite !forallb_forall. intros Hp a Ha. specialize (Hp a Ha).
  apply list_elem_of_In in Ha.
  destruct Ht as [-> | ->].
  all: repeat (apply elem_of_cons in Ha as [->|Ha];
               [first [ by apply Qle_bool_iff
                      | unfold holds in *; rewrite Hsame by discriminate; exact Hp ]|]).
  all: by apply elem_of_nil in Ha.
Qed.

Lemma test_solution_trace_bound_one_sided_witness :
  passes (reference_solution (-1) (-1)) TestAbsorberVaporFlow.test_solution = true.
Proof.
  apply (test_solution_trace_bound_one_sided
           TestAbsorberVaporFlow.test_solution
           (reference_solution 0 0) (reference_solution (-1) (-1))).
  - left. reflexivity.
  - intros [[]|[] j| | |] HN HO; try reflexivity.
    unfold reference_solution.
    destruct (String.eqb j "CO2"); [reflexivity|].
    destruct (String.eqb j "H2O"); [reflexivity|].
    destruct (String.eqb_spec j "N2") as [->|_]; [by destruct HN|].
    destruct (String.eqb_spec j "O2") as [->|_]; [by destruct HO|].
    reflexivity.
  - vm_compute. discriminate.
  - vm_compute. discriminate.
  - vm_compute. reflexivity.
Defined.






End SolventReboilerChecks.
